(** * The storage facade of [api/extensions/ext_storage.py]

    A shallow embedding of the module: the [match] statement of
    [Storage.get_storage_factory], the life cycle of the [storage]
    singleton ([Storage.__init__], [Storage.init_app]), the seven
    forwarding operations with their [try]/[except Exception] wrappers,
    and the [timeit] decorator.  Python code that can raise and that
    mutates the process is written in a state-and-exception monad in
    which the state survives a raise (a log record written before a
    re-raise stays written). *)

From Stdlib Require Import String List Bool Arith Lia.
From Stdlib Require Import Strings.Byte DecimalString.
Import ListNotations.
Local Open Scope string_scope.
Local Open Scope list_scope.

Set Implicit Arguments.

(** ** Python values, exceptions and outcomes *)

Definition bytes := list Byte.byte.

(** An exception object.  [exc_is_Exception] is [isinstance(e, Exception)]:
    [KeyboardInterrupt], [SystemExit] and [GeneratorExit] derive from
    [BaseException] only and are not caught by [except Exception]. *)
Record PyException := mkExc {
  exc_class : string;
  exc_is_Exception : bool;
  exc_args : string
}.

(** [None.attr] *)
Definition AttributeError_NoneType (attr : string) : PyException :=
  mkExc "AttributeError" true
        ("'NoneType' object has no attribute '" ++ attr ++ "'").

(** [None()] *)
Definition TypeError_NoneType_call : PyException :=
  mkExc "TypeError" true "'NoneType' object is not callable".

Inductive outcome (A : Type) : Type :=
| Returned (a : A)
| Raised (e : PyException).
Arguments Returned {A} a.
Arguments Raised {A} e.

(** ** The monad of Python statements over a process state [S] *)

Definition Py (S A : Type) : Type := S -> outcome A * S.

Definition ret {S A} (a : A) : Py S A := fun s => (Returned a, s).

Definition bind {S A B} (m : Py S A) (k : A -> Py S B) : Py S B :=
  fun s => match m s with
           | (Returned a, s') => k a s'
           | (Raised e, s') => (Raised e, s')
           end.

(** [raise e] *)
Definition raise {S A} (e : PyException) : Py S A := fun s => (Raised e, s).

(** [try: body / except Exception as e: handler(e)] *)
Definition try_except_Exception {S A}
           (body : Py S A) (handler : PyException -> Py S A) : Py S A :=
  fun s => match body s with
           | (Returned a, s') => (Returned a, s')
           | (Raised e, s') =>
               if exc_is_Exception e then handler e s' else (Raised e, s')
           end.

(** [try: body / finally: cleanup], the shape of a [with] block *)
Definition try_finally {S A} (body : Py S A) (cleanup : S -> S) : Py S A :=
  fun s => let (r, s') := body s in (r, cleanup s').

Definition fmap {S A B} (f : A -> B) (m : Py S A) : Py S B :=
  bind m (fun a => ret (f a)).

Declare Scope py_scope.
Delimit Scope py_scope with py.
Notation "x <- m ;; k" := (bind m (fun x => k))
  (at level 100, m at next level, right associativity) : py_scope.
Notation "m ;; k" := (bind m (fun _ => k))
  (at level 100, right associativity) : py_scope.
Local Open Scope py_scope.

Definition result {S A} (p : outcome A * S) : outcome A := fst p.
Definition final {S A} (p : outcome A * S) : S := snd p.

(** ** The [match] statement

    Only the patterns the module uses: a value pattern (a dotted name,
    compared with [==]), an or-pattern and the wildcard.  A [match] none
    of whose cases applies falls through; a function body that ends this
    way returns [None]. *)

Inductive pattern : Type :=
| PValue (v : string)
| POr (p q : pattern)
| PWildcard.

Fixpoint matches (p : pattern) (subject : string) : bool :=
  match p with
  | PValue v => String.eqb subject v
  | POr p q => matches p subject || matches q subject
  | PWildcard => true
  end.

Fixpoint match_stmt {A} (subject : string) (cases : list (pattern * A))
  : option A :=
  match cases with
  | [] => None
  | (p, body) :: rest =>
      if matches p subject then Some body else match_stmt subject rest
  end.

(** ** The driver registry *)

(** The driver classes [get_storage_factory] imports and returns. *)
Inductive DriverClass : Type :=
| AwsS3Storage
| AzureBlobStorage
| AliyunOssStorage
| GoogleCloudStorage
| TencentCosStorage
| OracleOCIStorage
| HuaweiObsStorage
| BaiduObsStorage
| VolcengineTosStorage
| SupabaseStorage
| LocalFsStorage.

(** Modelled from the spec: the members of [StorageType]
    ([extensions/storage/storage_type.py] is not part of the sources).
    The members are string-valued, so that a configured identifier such
    as ["s3"] compares equal to a member; their values are left open
    here and every result on the registry is proved for an arbitrary
    table. *)
Record StorageTypeEnum := {
  S3 : string;
  AZURE_BLOB : string;
  ALIYUN_OSS : string;
  GOOGLE_STORAGE : string;
  TENCENT_COS : string;
  OCI_STORAGE : string;
  HUAWEI_OBS : string;
  BAIDU_OBS : string;
  VOLCENGINE_TOS : string;
  SUPBASE : string;
  LOCAL : string
}.

(** The member values, in the order of the [case] clauses. *)
Definition member_values (T : StorageTypeEnum) : list string :=
  [S3 T; AZURE_BLOB T; ALIYUN_OSS T; GOOGLE_STORAGE T; TENCENT_COS T;
   OCI_STORAGE T; HUAWEI_OBS T; BAIDU_OBS T; VOLCENGINE_TOS T; SUPBASE T;
   LOCAL T].

(** The driver class the module pairs with each member. *)
Definition member_drivers (T : StorageTypeEnum) : list (string * DriverClass) :=
  [(S3 T, AwsS3Storage); (AZURE_BLOB T, AzureBlobStorage);
   (ALIYUN_OSS T, AliyunOssStorage); (GOOGLE_STORAGE T, GoogleCloudStorage);
   (TENCENT_COS T, TencentCosStorage); (OCI_STORAGE T, OracleOCIStorage);
   (HUAWEI_OBS T, HuaweiObsStorage); (BAIDU_OBS T, BaiduObsStorage);
   (VOLCENGINE_TOS T, VolcengineTosStorage); (SUPBASE T, SupabaseStorage);
   (LOCAL T, LocalFsStorage)].

(** [Storage.get_storage_factory]: the result is the class, not an
    instance; [None] would be the fall-through of the [match]. *)
Definition get_storage_factory (StorageType : StorageTypeEnum)
           (storage_type : string) : option DriverClass :=
  match_stmt storage_type
    [ (PValue (S3 StorageType), AwsS3Storage);
      (PValue (AZURE_BLOB StorageType), AzureBlobStorage);
      (PValue (ALIYUN_OSS StorageType), AliyunOssStorage);
      (PValue (GOOGLE_STORAGE StorageType), GoogleCloudStorage);
      (PValue (TENCENT_COS StorageType), TencentCosStorage);
      (PValue (OCI_STORAGE StorageType), OracleOCIStorage);
      (PValue (HUAWEI_OBS StorageType), HuaweiObsStorage);
      (PValue (BAIDU_OBS StorageType), BaiduObsStorage);
      (PValue (VOLCENGINE_TOS StorageType), VolcengineTosStorage);
      (PValue (SUPBASE StorageType), SupabaseStorage);
      (POr (PValue (LOCAL StorageType)) PWildcard, LocalFsStorage) ].

(** A run of [case] clauses with value patterns, from pairs of a value
    and a body. *)
Definition value_cases {A} (l : list (string * A)) : list (pattern * A) :=
  map (fun kv => (PValue (fst kv), snd kv)) l.

(** The pairs of the ten clauses before the last one. *)
Definition cloud_drivers (T : StorageTypeEnum) : list (string * DriverClass) :=
  removelast (member_drivers T).

(** A table of member values to run the registry on: the identifiers
    the spec names, and ["baidu-obs"] for the member it leaves out. *)
Definition sample_StorageType : StorageTypeEnum := {|
  S3 := "s3";
  AZURE_BLOB := "azure-blob";
  ALIYUN_OSS := "oss";
  GOOGLE_STORAGE := "gcs";
  TENCENT_COS := "cos";
  OCI_STORAGE := "oci";
  HUAWEI_OBS := "obs";
  BAIDU_OBS := "baidu-obs";
  VOLCENGINE_TOS := "volcengine-tos";
  SUPBASE := "supabase";
  LOCAL := "local"
|}.

(** ** The collaborators of the facade *)

(** What a driver method does to everything outside the facade (the
    storage medium, SDK clients, the driver's own fields): a function of
    that outside state [X] which returns or raises. *)
Definition ext_op (X A : Type) : Type := X -> outcome A * X.

(** Modelled from the spec: the operation contract of [BaseStorage]
    ([extensions/storage/base_storage.py] is not part of the sources),
    section 4.2: [save] and [download] are procedures, [load_once]
    yields the bytes, [load_stream] a generator object, [exists] a
    boolean and [delete] nothing.  A driver object is its methods. *)
Record BaseStorage (X G : Type) := {
  bs_save : string -> bytes -> ext_op X unit;
  bs_load_once : string -> ext_op X bytes;
  bs_load_stream : string -> ext_op X G;
  bs_download : string -> string -> ext_op X unit;
  bs_exists : string -> ext_op X bool;
  bs_delete : string -> ext_op X unit
}.

(** Everything the module takes from outside: the outside state and the
    generator objects of the drivers, the constructors of the driver
    classes, [next] on a generator, [dify_config.STORAGE_TYPE], the
    [StorageType] members, and for [timeit] the wall clock (the value of
    the n-th [time.time()]) and the rendering of [end - start] with
    [:.4f]. *)
Class Platform := {
  Ext : Type;
  Generator : Type;
  Timestamp : Type;
  construct : DriverClass -> ext_op Ext (BaseStorage Ext Generator);
  generator_next : Generator -> ext_op Ext (option bytes);
  StorageType : StorageTypeEnum;
  STORAGE_TYPE : string;
  wall_clock : nat -> Timestamp;
  format_elapsed : Timestamp -> Timestamp -> string
}.

(** A method call on a driver, as it appears in the trace. *)
Inductive DriverCall : Type :=
| MSave (filename : string) (data : bytes)
| MLoadOnce (filename : string)
| MLoadStream (filename : string)
| MDownload (filename target_filepath : string)
| MExists (filename : string)
| MDelete (filename : string).

(** What the process did to its collaborators, oldest first. *)
Inductive Event : Type :=
| AppContextEnter
| AppContextExit
| Construct (cls : DriverClass)
| Call (obj_id : nat) (m : DriverCall).

(** A record written by [logging.exception(msg, e)]. *)
Record LogRecord := { log_msg : string; log_arg : PyException }.

Section Facade.
Context {P : Platform}.

(** A constructed driver: its identity (the number of drivers
    constructed before it), its class and its methods. *)
Record DriverObj := {
  obj_id : nat;
  obj_class : DriverClass;
  obj_methods : BaseStorage Ext Generator
}.

(** The state of the process: the [storage_runner] field of the
    [storage] singleton ([None] is Python's [None]), the driver classes
    instantiated so far, the outside state, the log, the trace, what
    [print] wrote, how often the clock was read and what the
    [REQUEST_LATENCY] histogram has observed. *)
Record World := {
  storage_runner : option DriverObj;
  constructed : list DriverClass;
  ext : Ext;
  log : list LogRecord;
  trace : list Event;
  stdout : list string;
  clock_reads : nat;
  REQUEST_LATENCY : list Timestamp
}.

Definition set_storage_runner (o : option DriverObj) (w : World) : World :=
  {| storage_runner := o; constructed := constructed w; ext := ext w;
     log := log w; trace := trace w; stdout := stdout w;
     clock_reads := clock_reads w; REQUEST_LATENCY := REQUEST_LATENCY w |}.

Definition add_constructed (c : DriverClass) (w : World) : World :=
  {| storage_runner := storage_runner w; constructed := constructed w ++ [c];
     ext := ext w; log := log w; trace := trace w; stdout := stdout w;
     clock_reads := clock_reads w; REQUEST_LATENCY := REQUEST_LATENCY w |}.

Definition set_ext (x : Ext) (w : World) : World :=
  {| storage_runner := storage_runner w; constructed := constructed w;
     ext := x; log := log w; trace := trace w; stdout := stdout w;
     clock_reads := clock_reads w; REQUEST_LATENCY := REQUEST_LATENCY w |}.

Definition add_log (r : LogRecord) (w : World) : World :=
  {| storage_runner := storage_runner w; constructed := constructed w;
     ext := ext w; log := log w ++ [r]; trace := trace w; stdout := stdout w;
     clock_reads := clock_reads w; REQUEST_LATENCY := REQUEST_LATENCY w |}.

Definition add_trace (ev : Event) (w : World) : World :=
  {| storage_runner := storage_runner w; constructed := constructed w;
     ext := ext w; log := log w; trace := trace w ++ [ev]; stdout := stdout w;
     clock_reads := clock_reads w; REQUEST_LATENCY := REQUEST_LATENCY w |}.

Definition add_stdout (line : string) (w : World) : World :=
  {| storage_runner := storage_runner w; constructed := constructed w;
     ext := ext w; log := log w; trace := trace w; stdout := stdout w ++ [line];
     clock_reads := clock_reads w; REQUEST_LATENCY := REQUEST_LATENCY w |}.

Definition tick (w : World) : World :=
  {| storage_runner := storage_runner w; constructed := constructed w;
     ext := ext w; log := log w; trace := trace w; stdout := stdout w;
     clock_reads := S (clock_reads w); REQUEST_LATENCY := REQUEST_LATENCY w |}.

(** [logging.exception(msg, e)] *)
Definition logging_exception (msg : string) (e : PyException) : Py World unit :=
  fun w => (Returned tt, add_log {| log_msg := msg; log_arg := e |} w).

(** [time.time()] *)
Definition time_time : Py World Timestamp :=
  fun w => (Returned (wall_clock (clock_reads w)), tick w).

(** [print(line)] *)
Definition print (line : string) : Py World unit :=
  fun w => (Returned tt, add_stdout line w).

(** The wrapper [timeit(func)] applied to arguments, given
    [func.__name__] and the call of [func] on those arguments. *)
Definition timeit {A} (func_name : string) (func : Py World A) : Py World A :=
  start_time <- time_time ;;
  result <- func ;;
  end_time <- time_time ;;
  print ("Function '" ++ func_name ++ "' executed in "
         ++ format_elapsed end_time start_time ++ " seconds.") ;;
  ret result.

(** The module body up to [storage = Storage()]: [Storage.__init__] sets
    [storage_runner] to [None]; nothing is constructed, logged or
    observed yet. *)
Definition Storage__init__ (x : Ext) : World :=
  {| storage_runner := None; constructed := []; ext := x; log := [];
     trace := []; stdout := []; clock_reads := 0; REQUEST_LATENCY := [] |}.

(** [storage_factory()]: calling [None] raises; calling a class runs its
    constructor on the outside state and, when that returns, yields a
    new object. *)
Definition call_factory (storage_factory : option DriverClass)
  : Py World DriverObj :=
  match storage_factory with
  | None => raise TypeError_NoneType_call
  | Some cls =>
      fun w =>
        let w := add_trace (Construct cls) w in
        match construct cls (ext w) with
        | (Returned methods, x') =>
            (Returned {| obj_id := length (constructed w);
                         obj_class := cls;
                         obj_methods := methods |},
             add_constructed cls (set_ext x' w))
        | (Raised e, x') => (Raised e, set_ext x' w)
        end
  end.

(** [with app.app_context(): body] *)
Definition with_app_context {A} (body : Py World A) : Py World A :=
  fun w => try_finally body (add_trace AppContextExit)
                       (add_trace AppContextEnter w).

(** [Storage.init_app] *)
Definition init_app : Py World unit :=
  let storage_factory := get_storage_factory StorageType STORAGE_TYPE in
  with_app_context
    (obj <- call_factory storage_factory ;;
     fun w => (Returned tt, set_storage_runner (Some obj) w)).

(** [self.storage_runner.attr(...)]: the attribute lookup fails on
    [None]; otherwise the method runs on the outside state. *)
Definition runner_method {A} (attr : string) (m : DriverCall)
           (method : BaseStorage Ext Generator -> ext_op Ext A) : Py World A :=
  fun w =>
    match storage_runner w with
    | None => (Raised (AttributeError_NoneType attr), w)
    | Some obj =>
        let (r, x') := method (obj_methods obj) (ext w) in
        (r, set_ext x' (add_trace (Call (obj_id obj) m) w))
    end.

(** [Storage.save]: the call is a statement, the method returns [None]. *)
Definition save (filename : string) (data : bytes) : Py World unit :=
  try_except_Exception
    (runner_method "save" (MSave filename data)
                   (fun o => bs_save o filename data) ;;
     ret tt)
    (fun e => logging_exception "Failed to save file: %s" e ;; raise e).

(** [Storage.load_once] *)
Definition load_once (filename : string) : Py World bytes :=
  try_except_Exception
    (runner_method "load_once" (MLoadOnce filename)
                   (fun o => bs_load_once o filename))
    (fun e => logging_exception "Failed to load_once file: %s" e ;; raise e).

(** [Storage.load_stream] *)
Definition load_stream (filename : string) : Py World Generator :=
  try_except_Exception
    (runner_method "load_stream" (MLoadStream filename)
                   (fun o => bs_load_stream o filename))
    (fun e => logging_exception "Failed to load_stream file: %s" e ;; raise e).

(** The values the facade hands back: [None], a boolean, [bytes] or a
    generator object. *)
Inductive PyValue : Type :=
| PyNone
| PyBool (b : bool)
| PyBytes (b : bytes)
| PyGenerator (g : Generator).

(** [Storage.load]; [stream] is keyword-only with default [False]
    ([None] here is the omitted argument). *)
Definition load (filename : string) (stream : option bool) : Py World PyValue :=
  let stream := match stream with Some b => b | None => false end in
  try_except_Exception
    (if stream
     then fmap PyGenerator (load_stream filename)
     else fmap PyBytes (load_once filename))
    (fun e => logging_exception "Failed to load file: %s" e ;; raise e).

(** [Storage.download] *)
Definition download (filename target_filepath : string) : Py World unit :=
  try_except_Exception
    (runner_method "download" (MDownload filename target_filepath)
                   (fun o => bs_download o filename target_filepath) ;;
     ret tt)
    (fun e => logging_exception "Failed to download file: %s" e ;; raise e).

(** [Storage.exists] *)
Definition exists_ (filename : string) : Py World bool :=
  try_except_Exception
    (runner_method "exists" (MExists filename)
                   (fun o => bs_exists o filename))
    (fun e => logging_exception "Failed to check file exists: %s" e ;; raise e).

(** [Storage.delete] *)
Definition delete (filename : string) : Py World unit :=
  try_except_Exception
    (runner_method "delete" (MDelete filename)
                   (fun o => bs_delete o filename))
    (fun e => logging_exception "Failed to delete file: %s" e ;; raise e).

End Facade.

(** ** The operations as one family *)

(** A call of a facade operation with its arguments. *)
Inductive FacadeCall : Type :=
| Save (filename : string) (data : bytes)
| Load (filename : string) (stream : option bool)
| LoadOnce (filename : string)
| LoadStream (filename : string)
| Download (filename target_filepath : string)
| Exists (filename : string)
| Delete (filename : string).

(** The driver method a facade call ends in, with the arguments it gets. *)
Definition forwarded (c : FacadeCall) : DriverCall :=
  match c with
  | Save filename data => MSave filename data
  | Load filename (Some true) => MLoadStream filename
  | Load filename _ => MLoadOnce filename
  | LoadOnce filename => MLoadOnce filename
  | LoadStream filename => MLoadStream filename
  | Download filename target_filepath => MDownload filename target_filepath
  | Exists filename => MExists filename
  | Delete filename => MDelete filename
  end.

(** The messages of the [logging.exception] calls a failure of the
    driver passes through, innermost first: [load] wraps [load_once] or
    [load_stream], which have their own handler. *)
Definition log_messages (c : FacadeCall) : list string :=
  match c with
  | Save _ _ => ["Failed to save file: %s"]
  | Load _ (Some true) =>
      ["Failed to load_stream file: %s"; "Failed to load file: %s"]
  | Load _ _ => ["Failed to load_once file: %s"; "Failed to load file: %s"]
  | LoadOnce _ => ["Failed to load_once file: %s"]
  | LoadStream _ => ["Failed to load_stream file: %s"]
  | Download _ _ => ["Failed to download file: %s"]
  | Exists _ => ["Failed to check file exists: %s"]
  | Delete _ => ["Failed to delete file: %s"]
  end.

(** The name of the facade method and of the driver method. *)
Definition op_name (c : FacadeCall) : string :=
  match c with
  | Save _ _ => "save"
  | Load _ _ => "load"
  | LoadOnce _ => "load_once"
  | LoadStream _ => "load_stream"
  | Download _ _ => "download"
  | Exists _ => "exists"
  | Delete _ => "delete"
  end.

Definition method_name (m : DriverCall) : string :=
  match m with
  | MSave _ _ => "save"
  | MLoadOnce _ => "load_once"
  | MLoadStream _ => "load_stream"
  | MDownload _ _ => "download"
  | MExists _ => "exists"
  | MDelete _ => "delete"
  end.

Definition is_load (c : FacadeCall) : bool :=
  match c with
  | Load _ _ => true
  | _ => false
  end.

Section Operations.
Context {P : Platform}.

Definition add_logs (rs : list LogRecord) (w : World) : World :=
  fold_left (fun w r => add_log r w) rs w.

(** The result of a facade call as a Python value; an operation without
    a value returns [None]. *)
Definition run_op (c : FacadeCall) : Py World PyValue :=
  match c with
  | Save filename data => fmap (fun _ => PyNone) (save filename data)
  | Load filename stream => load filename stream
  | LoadOnce filename => fmap PyBytes (load_once filename)
  | LoadStream filename => fmap PyGenerator (load_stream filename)
  | Download filename target_filepath =>
      fmap (fun _ => PyNone) (download filename target_filepath)
  | Exists filename => fmap PyBool (exists_ filename)
  | Delete filename => fmap (fun _ => PyNone) (delete filename)
  end.

(** The bare call of a driver method, with no facade around it. *)
Definition invoke (o : BaseStorage Ext Generator) (m : DriverCall)
  : ext_op Ext PyValue :=
  fun x =>
    match m with
    | MSave filename data =>
        let (r, x') := bs_save o filename data x in
        (match r with Returned _ => Returned PyNone | Raised e => Raised e end, x')
    | MLoadOnce filename =>
        let (r, x') := bs_load_once o filename x in
        (match r with Returned b => Returned (PyBytes b) | Raised e => Raised e end, x')
    | MLoadStream filename =>
        let (r, x') := bs_load_stream o filename x in
        (match r with Returned g => Returned (PyGenerator g) | Raised e => Raised e end, x')
    | MDownload filename target_filepath =>
        let (r, x') := bs_download o filename target_filepath x in
        (match r with Returned _ => Returned PyNone | Raised e => Raised e end, x')
    | MExists filename =>
        let (r, x') := bs_exists o filename x in
        (match r with Returned b => Returned (PyBool b) | Raised e => Raised e end, x')
    | MDelete filename =>
        let (r, x') := bs_delete o filename x in
        (match r with Returned _ => Returned PyNone | Raised e => Raised e end, x')
    end.

(** The log records a facade call writes for an outcome of the driver. *)
Definition failure_log (c : FacadeCall) (r : outcome PyValue) : list LogRecord :=
  match r with
  | Returned _ => []
  | Raised e =>
      if exc_is_Exception e
      then map (fun msg => {| log_msg := msg; log_arg := e |}) (log_messages c)
      else []
  end.

(** A caller that issues calls one after the other and carries on after
    a failure. *)
Fixpoint run_ops (cs : list FacadeCall) (w : World) : World :=
  match cs with
  | [] => w
  | c :: rest => run_ops rest (final (run_op c w))
  end.

Definition Uninitialized (w : World) : Prop := storage_runner w = None.

(** One step of the process as the facade sees it: the initialization
    call or a facade operation. *)
Inductive step : World -> World -> Prop :=
| step_init_app : forall w, step w (final (init_app w))
| step_op : forall c w, step w (final (run_op c w)).

Inductive steps : World -> World -> Prop :=
| steps_refl : forall w, steps w w
| steps_next : forall w1 w2 w3, step w1 w2 -> steps w2 w3 -> steps w1 w3.

(** ** The consumer of a stream *)

(** [next(g)] in the caller's code; [None] is the end of the stream. *)
Definition next (g : Generator) : Py World (option bytes) :=
  fun w => let (r, x') := generator_next g (ext w) in (r, set_ext x' w).

(** A caller that takes at most [n] chunks from [g]. *)
Fixpoint take_chunks (n : nat) (g : Generator) : Py World (list bytes) :=
  match n with
  | 0 => ret []
  | S n' =>
      chunk <- next g ;;
      match chunk with
      | None => ret []
      | Some b => rest <- take_chunks n' g ;; ret (b :: rest)
      end
  end.

(** [g = storage.load_stream(filename)] followed by the loop. *)
Definition stream_and_take (n : nat) (filename : string) : Py World (list bytes) :=
  g <- load_stream filename ;; take_chunks n g.

End Operations.

(** ** A platform to run the facade on

    One driver for every class, over a store held in memory: a list of
    blobs, a flag for whether the medium can be reached, and the chunks
    each open stream still has to deliver. *)

Record MemExt := {
  blobs : list (string * bytes);
  online : bool;
  streams : list (list bytes)
}.

Definition ConnectionError : PyException :=
  mkExc "ConnectionError" true "medium unreachable".
Definition FileNotFoundError (filename : string) : PyException :=
  mkExc "FileNotFoundError" true filename.
Definition KeyboardInterrupt : PyException :=
  mkExc "KeyboardInterrupt" false "".

Fixpoint find_blob (filename : string) (l : list (string * bytes)) : option bytes :=
  match l with
  | [] => None
  | (k, v) :: rest => if String.eqb k filename then Some v else find_blob filename rest
  end.

Definition drop_blob (filename : string) (l : list (string * bytes))
  : list (string * bytes) :=
  filter (fun kv => negb (String.eqb (fst kv) filename)) l.

Definition mem_save (filename : string) (data : bytes) : ext_op MemExt unit :=
  fun x =>
    if online x
    then (Returned tt,
          {| blobs := (filename, data) :: drop_blob filename (blobs x);
             online := online x; streams := streams x |})
    else (Raised ConnectionError, x).

Definition mem_load_once (filename : string) : ext_op MemExt bytes :=
  fun x =>
    if online x
    then match find_blob filename (blobs x) with
         | Some data => (Returned data, x)
         | None => (Raised (FileNotFoundError filename), x)
         end
    else (Raised ConnectionError, x).

(** The stream is opened at once; its chunks are fetched on demand. *)
Definition mem_load_stream (filename : string) : ext_op MemExt nat :=
  fun x =>
    match find_blob filename (blobs x) with
    | Some data =>
        (Returned (length (streams x)),
         {| blobs := blobs x; online := online x;
            streams := streams x ++ [map (fun b => [b]) data] |})
    | None => (Raised (FileNotFoundError filename), x)
    end.

Definition mem_download (filename target_filepath : string) : ext_op MemExt unit :=
  fun x =>
    match mem_load_once filename x with
    | (Returned _, x') => (Returned tt, x')
    | (Raised e, x') => (Raised e, x')
    end.

Definition mem_exists (filename : string) : ext_op MemExt bool :=
  fun x =>
    if online x
    then (Returned (match find_blob filename (blobs x) with
                    | Some _ => true
                    | None => false
                    end), x)
    else (Raised ConnectionError, x).

Definition mem_delete (filename : string) : ext_op MemExt unit :=
  fun x =>
    if online x
    then (Returned tt,
          {| blobs := drop_blob filename (blobs x);
             online := online x; streams := streams x |})
    else (Raised ConnectionError, x).

Fixpoint pop_chunk (g : nat) (ss : list (list bytes))
  : option bytes * list (list bytes) :=
  match ss, g with
  | [], _ => (None, [])
  | s :: rest, 0 =>
      match s with
      | [] => (None, [] :: rest)
      | b :: s' => (Some b, s' :: rest)
      end
  | s :: rest, S g' => let (r, rest') := pop_chunk g' rest in (r, s :: rest')
  end.

Definition mem_generator_next (g : nat) : ext_op MemExt (option bytes) :=
  fun x =>
    if online x
    then let (r, ss) := pop_chunk g (streams x) in
         (Returned r, {| blobs := blobs x; online := online x; streams := ss |})
    else (Raised ConnectionError, x).

Definition mem_driver : BaseStorage MemExt nat := {|
  bs_save := mem_save;
  bs_load_once := mem_load_once;
  bs_load_stream := mem_load_stream;
  bs_download := mem_download;
  bs_exists := mem_exists;
  bs_delete := mem_delete
|}.

Definition mem_construct (cls : DriverClass)
  : ext_op MemExt (BaseStorage MemExt nat) :=
  fun x => if online x then (Returned mem_driver, x)
           else (Raised ConnectionError, x).

(** The platform with [dify_config.STORAGE_TYPE = identifier]; the clock
    advances one second per reading. *)
Definition mem_platform (identifier : string) : Platform := {|
  Ext := MemExt;
  Generator := nat;
  Timestamp := nat;
  construct := mem_construct;
  generator_next := mem_generator_next;
  StorageType := sample_StorageType;
  STORAGE_TYPE := identifier;
  wall_clock := fun n => n;
  format_elapsed := fun end_time start_time =>
    (NilEmpty.string_of_uint (Nat.to_uint (Nat.sub end_time start_time))
     ++ ".0000")%string
|}.

Definition hello : bytes := [x68; x65; x6c; x6c; x6f].

Definition empty_store : MemExt :=
  {| blobs := []; online := true; streams := [] |}.
Definition store_with_a_txt : MemExt :=
  {| blobs := [("a.txt", hello)]; online := true; streams := [] |}.
Definition unreachable_store : MemExt :=
  {| blobs := [("a.txt", hello)]; online := false; streams := [] |}.

(** The process right after [storage.init_app(app)] on a store. *)
Definition started (identifier : string) (x : MemExt)
  : @World (mem_platform identifier) :=
  final (@init_app (mem_platform identifier)
                   (@Storage__init__ (mem_platform identifier) x)).

(** The same process once the medium can no longer be reached. *)
Definition unplug (x : MemExt) : MemExt :=
  {| blobs := blobs x; online := false; streams := streams x |}.

Definition unplugged (identifier : string) (x : MemExt)
  : @World (mem_platform identifier) :=
  @set_ext (mem_platform identifier)
           (unplug (@ext (mem_platform identifier) (started identifier x)))
           (started identifier x).

(** The platform configured for ["s3"], and the driver object
    [init_app] retains on it. *)
Definition s3 : Platform := mem_platform "s3".

Definition s3_runner : @DriverObj s3 :=
  @Build_DriverObj s3 0 AwsS3Storage mem_driver.

(** The log records of one handler for an outcome. *)
Definition handler_log {A} (msg : string) (r : outcome A) : list LogRecord :=
  match r with
  | Returned _ => []
  | Raised e =>
      if exc_is_Exception e then [{| log_msg := msg; log_arg := e |}] else []
  end.

(** ** The module's entry point *)

Section ModuleLevel.
Context {P : Platform}.

(** The module-level [init_app(app)]: it calls [init_app] of the
    [storage] singleton, the one facade object this state describes. *)
Definition ext_storage_init_app : Py World unit := init_app.

(** What the caller of [run_ops] gets back, call by call. *)
Fixpoint run_ops_results (cs : list FacadeCall) (w : World)
  : list (outcome PyValue) :=
  match cs with
  | [] => []
  | c :: rest =>
      result (run_op c w) :: run_ops_results rest (final (run_op c w))
  end.

(** The bare driver: method calls on one driver object, one after the
    other on the outside state, with what each returns or raises. *)
Fixpoint invoke_all (o : BaseStorage Ext Generator) (ms : list DriverCall)
         (x : Ext) : list (outcome PyValue) * Ext :=
  match ms with
  | [] => ([], x)
  | m :: rest =>
      let (r, x') := invoke o m x in
      let (rs, x'') := invoke_all o rest x' in
      (r :: rs, x'')
  end.

End ModuleLevel.

(** The platform with an identifier no member has. *)
Definition bogus : Platform := mem_platform "bogus-name".

(** * Properties *)

(** ** The registry *)

Example resolve_s3 :
  get_storage_factory sample_StorageType "s3" = Some AwsS3Storage.
Proof. reflexivity. Qed.

Example resolve_bogus :
  get_storage_factory sample_StorageType "bogus-name" = Some LocalFsStorage.
Proof. reflexivity. Qed.

Example resolve_empty :
  get_storage_factory sample_StorageType "" = Some LocalFsStorage.
Proof. reflexivity. Qed.

Lemma match_stmt_last_wildcard {A} (subject : string) (p : pattern) (a : A)
      (cases : list (pattern * A)) :
  exists b, match_stmt subject (cases ++ [(POr p PWildcard, a)]) = Some b.
Proof.
  induction cases as [|[q c] cases IH]; simpl.
  - rewrite orb_true_r. now exists a.
  - destruct (matches q subject); [now exists c | exact IH].
Qed.

Lemma get_storage_factory_some (T : StorageTypeEnum) (identifier : string) :
  exists cls, get_storage_factory T identifier = Some cls.
Proof.
  unfold get_storage_factory.
  exact (match_stmt_last_wildcard identifier (PValue (LOCAL T)) LocalFsStorage
    [ (PValue (S3 T), AwsS3Storage);
      (PValue (AZURE_BLOB T), AzureBlobStorage);
      (PValue (ALIYUN_OSS T), AliyunOssStorage);
      (PValue (GOOGLE_STORAGE T), GoogleCloudStorage);
      (PValue (TENCENT_COS T), TencentCosStorage);
      (PValue (OCI_STORAGE T), OracleOCIStorage);
      (PValue (HUAWEI_OBS T), HuaweiObsStorage);
      (PValue (BAIDU_OBS T), BaiduObsStorage);
      (PValue (VOLCENGINE_TOS T), VolcengineTosStorage);
      (PValue (SUPBASE T), SupabaseStorage) ]).
Qed.

Lemma match_stmt_values_miss {A} (subject : string) (l : list (string * A)) tail :
  ~ In subject (map fst l) ->
  match_stmt subject (value_cases l ++ tail) = match_stmt subject tail.
Proof.
  induction l as [|[v a] l IH]; simpl; intros Hnot; [reflexivity |].
  destruct (String.eqb_spec subject v) as [-> | Hne].
  - exfalso. apply Hnot. now left.
  - apply IH. intros Hin. apply Hnot. now right.
Qed.

Lemma match_stmt_values_hit {A} (name : string) (a : A) (l : list (string * A)) tail :
  NoDup (map fst l) ->
  In (name, a) l ->
  match_stmt name (value_cases l ++ tail) = Some a.
Proof.
  induction l as [|[v b] l IH]; simpl; intros Hnd Hin; [contradiction |].
  inversion Hnd as [| ? ? Hv Hnd']; subst.
  destruct Hin as [Heq | Hin].
  - inversion Heq; subst. now rewrite String.eqb_refl.
  - destruct (String.eqb_spec name v) as [-> | Hne].
    + exfalso. apply Hv. change v with (fst (v, a)). now apply in_map.
    + now apply IH.
Qed.

Lemma get_storage_factory_cases (T : StorageTypeEnum) (identifier : string) :
  get_storage_factory T identifier =
  match_stmt identifier
    (value_cases (cloud_drivers T)
     ++ [(POr (PValue (LOCAL T)) PWildcard, LocalFsStorage)]).
Proof. reflexivity. Qed.

Lemma member_values_cloud (T : StorageTypeEnum) :
  member_values T = map fst (cloud_drivers T) ++ [LOCAL T].
Proof. reflexivity. Qed.

Lemma member_drivers_cloud (T : StorageTypeEnum) :
  member_drivers T = cloud_drivers T ++ [(LOCAL T, LocalFsStorage)].
Proof. reflexivity. Qed.

Lemma get_storage_factory_unknown (T : StorageTypeEnum) (identifier : string) :
  ~ In identifier (member_values T) ->
  get_storage_factory T identifier = Some LocalFsStorage.
Proof.
  rewrite get_storage_factory_cases, member_values_cloud. intros Hnot.
  rewrite match_stmt_values_miss.
  - simpl. now rewrite orb_true_r.
  - intros Hin. apply Hnot. apply in_or_app. now left.
Qed.

Lemma get_storage_factory_member (T : StorageTypeEnum) name cls :
  NoDup (member_values T) ->
  In (name, cls) (member_drivers T) ->
  get_storage_factory T name = Some cls.
Proof.
  rewrite get_storage_factory_cases, member_values_cloud, member_drivers_cloud.
  intros Hnd Hin.
  apply in_app_or in Hin. destruct Hin as [Hin | [Heq | []]].
  - apply match_stmt_values_hit; [| assumption].
    now apply NoDup_app_remove_r in Hnd.
  - inversion Heq; subst.
    rewrite match_stmt_values_miss.
    + simpl. now rewrite String.eqb_refl.
    + intros Hin.
      apply NoDup_remove_2 in Hnd. rewrite app_nil_r in Hnd.
      contradiction.
Qed.

Lemma In_LOCAL_member_drivers (T : StorageTypeEnum) :
  In (LOCAL T, LocalFsStorage) (member_drivers T).
Proof. unfold member_drivers. simpl. tauto. Qed.

Lemma In_S3_member_drivers (T : StorageTypeEnum) :
  In (S3 T, AwsS3Storage) (member_drivers T).
Proof. unfold member_drivers. simpl. tauto. Qed.

(** C1: [get_storage_factory] is total: whatever the member values are,
    every identifier resolves to a driver class ([Some cls], never the
    fall-through [None]), and what it yields is the class, no driver
    object.  When the members have distinct values, none of them empty,
    with ["s3"] for [S3] and ["local"] for [LOCAL], every member yields
    the driver class paired with it, ["s3"] yields [AwsS3Storage], and
    every identifier that is no member value, the empty one and
    ["local"] all yield [LocalFsStorage]. *)
Theorem get_storage_factory_total (T : StorageTypeEnum) :
  NoDup (member_values T) ->
  ~ In "" (member_values T) ->
  S3 T = "s3" ->
  LOCAL T = "local" ->
  (forall identifier, exists cls, get_storage_factory T identifier = Some cls) /\
  (forall name cls, In (name, cls) (member_drivers T) ->
                    get_storage_factory T name = Some cls) /\
  get_storage_factory T "s3" = Some AwsS3Storage /\
  (forall identifier, ~ In identifier (member_values T) ->
                      get_storage_factory T identifier = Some LocalFsStorage) /\
  get_storage_factory T "" = Some LocalFsStorage /\
  get_storage_factory T "local" = Some LocalFsStorage.
Proof.
  intros Hnd Hempty Hs3 Hlocal.
  split; [apply get_storage_factory_some |].
  split; [intros name cls; now apply get_storage_factory_member |].
  split; [rewrite <- Hs3;
          apply get_storage_factory_member; [assumption | apply In_S3_member_drivers] |].
  split; [apply get_storage_factory_unknown |].
  split; [now apply get_storage_factory_unknown |].
  rewrite <- Hlocal.
  apply get_storage_factory_member; [assumption | apply In_LOCAL_member_drivers].
Qed.

Lemma sample_StorageType_NoDup : NoDup (member_values sample_StorageType).
Proof.
  unfold member_values, sample_StorageType; simpl.
  repeat (constructor; [simpl; intuition discriminate |]).
  constructor.
Qed.

Lemma sample_StorageType_nonempty : ~ In "" (member_values sample_StorageType).
Proof. unfold member_values, sample_StorageType; simpl. intuition discriminate. Qed.

Lemma get_storage_factory_total_witness :
  get_storage_factory sample_StorageType "s3" = Some AwsS3Storage /\
  get_storage_factory sample_StorageType "azure-blob" = Some AzureBlobStorage /\
  get_storage_factory sample_StorageType "bogus-name" = Some LocalFsStorage /\
  get_storage_factory sample_StorageType "" = Some LocalFsStorage /\
  get_storage_factory sample_StorageType "local" = Some LocalFsStorage.
Proof.
  destruct (get_storage_factory_total sample_StorageType_NoDup
              sample_StorageType_nonempty eq_refl eq_refl)
    as (_ & Hmember & Hs3 & Hunknown & Hempty & Hlocal).
  split; [exact Hs3 |].
  split; [apply Hmember; simpl; tauto |].
  split; [apply Hunknown; simpl; intuition discriminate |].
  split; [exact Hempty | exact Hlocal].
Defined.

(** ** The forwarding operations *)

Section FacadeProperties.
Context {P : Platform}.

(** Unfolds a facade call down to the driver method it runs. *)
Ltac unfold_facade :=
  unfold run_op, load, save, load_once, load_stream, download, exists_, delete,
         fmap, try_except_Exception, bind, ret, raise, logging_exception,
         runner_method, invoke, failure_log, add_logs, forwarded, log_messages.

Ltac case_driver :=
  match goal with
  | |- context [bs_save ?o ?f ?d ?x] => destruct (bs_save o f d x) as [[[]|?e] ?x']
  | |- context [bs_load_once ?o ?f ?x] => destruct (bs_load_once o f x) as [[?b|?e] ?x']
  | |- context [bs_load_stream ?o ?f ?x] => destruct (bs_load_stream o f x) as [[?g|?e] ?x']
  | |- context [bs_download ?o ?f ?t ?x] => destruct (bs_download o f t x) as [[[]|?e] ?x']
  | |- context [bs_exists ?o ?f ?x] => destruct (bs_exists o f x) as [[?b|?e] ?x']
  | |- context [bs_delete ?o ?f ?x] => destruct (bs_delete o f x) as [[[]|?e] ?x']
  end.

Ltac case_exception :=
  match goal with
  | |- context [exc_is_Exception ?e] => destruct (exc_is_Exception e) eqn:?
  end.

(** With a driver retained, a facade call is one call of the driver
    method [forwarded c] on the retained object: it has the outcome of
    that call, leaves the outside state the call leaves, and adds the
    call to the trace and, for a failure that is an [Exception], the log
    records of its handlers to the log. *)
Lemma run_op_forward (c : FacadeCall) (w : World) (obj : DriverObj) :
  storage_runner w = Some obj ->
  run_op c w =
  let (r, x') := invoke (obj_methods obj) (forwarded c) (ext w) in
  (r, add_logs (failure_log c r)
        (set_ext x' (add_trace (Call (obj_id obj) (forwarded c)) w))).
Proof.
  intros Hrun.
  destruct c as [f d | f [[|]|] | f | f | f t | f | f];
    unfold_facade; rewrite Hrun; simpl;
    case_driver; simpl; try reflexivity;
    case_exception; simpl; try rewrite Heqb; reflexivity.
Qed.

(** With no driver retained, the attribute lookup on [None] fails before
    anything is called. *)
Lemma run_op_None (c : FacadeCall) (w : World) :
  storage_runner w = None ->
  run_op c w =
  (Raised (AttributeError_NoneType (method_name (forwarded c))),
   add_logs (failure_log c (Raised (AttributeError_NoneType
                                      (method_name (forwarded c))))) w).
Proof.
  intros Hrun.
  destruct c as [f d | f [[|]|] | f | f | f t | f | f];
    unfold_facade; rewrite Hrun; reflexivity.
Qed.

Lemma add_logs_fields (rs : list LogRecord) (w : World) :
  storage_runner (add_logs rs w) = storage_runner w /\
  constructed (add_logs rs w) = constructed w /\
  ext (add_logs rs w) = ext w /\
  trace (add_logs rs w) = trace w /\
  stdout (add_logs rs w) = stdout w /\
  clock_reads (add_logs rs w) = clock_reads w /\
  REQUEST_LATENCY (add_logs rs w) = REQUEST_LATENCY w /\
  log (add_logs rs w) = log w ++ rs.
Proof.
  revert w. induction rs as [|r rs IH]; intros w; simpl.
  - rewrite app_nil_r. repeat split.
  - destruct (IH (add_log r w)) as (H1 & H2 & H3 & H4 & H5 & H6 & H7 & H8).
    unfold add_logs in *. simpl.
    rewrite H1, H2, H3, H4, H5, H6, H7, H8. simpl.
    rewrite <- app_assoc. repeat split.
Qed.

(** No facade call touches the retained reference or constructs a
    driver, whatever the state. *)
Lemma run_op_keeps_runner (c : FacadeCall) (w : World) :
  storage_runner (final (run_op c w)) = storage_runner w /\
  constructed (final (run_op c w)) = constructed w.
Proof.
  destruct (storage_runner w) as [obj|] eqn:Hrun.
  - rewrite (run_op_forward c w Hrun).
    destruct (invoke (obj_methods obj) (forwarded c) (ext w)) as [r x'].
    unfold final; cbn [snd].
    destruct (add_logs_fields (failure_log c r)
                (set_ext x' (add_trace (Call (obj_id obj) (forwarded c)) w)))
      as (H1 & H2 & _).
    rewrite H1, H2. simpl. auto.
  - rewrite (run_op_None c w Hrun). unfold final; cbn [snd].
    destruct (add_logs_fields
                (failure_log c (Raised (AttributeError_NoneType
                                          (method_name (forwarded c))))) w)
      as (H1 & H2 & _).
    rewrite H1, H2. auto.
Qed.

(** The shape every operation but [load] has: one method call under
    one handler that logs and re-raises. *)
Lemma try_log_forward {A} (attr : string) (m : DriverCall)
      (method : BaseStorage Ext Generator -> ext_op Ext A) (msg : string)
      (w : World) (obj : DriverObj) :
  storage_runner w = Some obj ->
  try_except_Exception (runner_method attr m method)
    (fun e => logging_exception msg e ;; raise e) w =
  let (r, x') := method (obj_methods obj) (ext w) in
  (r, add_logs (handler_log msg r)
        (set_ext x' (add_trace (Call (obj_id obj) m) w))).
Proof.
  intros Hrun.
  unfold try_except_Exception, runner_method, bind, raise, logging_exception,
         handler_log, add_logs.
  rewrite Hrun.
  destruct (method (obj_methods obj) (ext w)) as [[a|e] x']; simpl;
    [reflexivity |].
  destruct (exc_is_Exception e); reflexivity.
Qed.

(** The same with the call as a statement, for [save] and [download]. *)
Lemma try_log_forward_stmt (attr : string) (m : DriverCall)
      (method : BaseStorage Ext Generator -> ext_op Ext unit) (msg : string)
      (w : World) (obj : DriverObj) :
  storage_runner w = Some obj ->
  try_except_Exception (runner_method attr m method ;; ret tt)
    (fun e => logging_exception msg e ;; raise e) w =
  let (r, x') := method (obj_methods obj) (ext w) in
  (r, add_logs (handler_log msg r)
        (set_ext x' (add_trace (Call (obj_id obj) m) w))).
Proof.
  intros Hrun.
  unfold try_except_Exception, runner_method, bind, raise, ret,
         logging_exception, handler_log, add_logs.
  rewrite Hrun.
  destruct (method (obj_methods obj) (ext w)) as [[[]|e] x']; simpl;
    [reflexivity |].
  destruct (exc_is_Exception e); reflexivity.
Qed.

Lemma add_logs_ext rs (w : World) : ext (add_logs rs w) = ext w.
Proof. apply add_logs_fields. Qed.

Lemma add_logs_trace rs (w : World) : trace (add_logs rs w) = trace w.
Proof. apply add_logs_fields. Qed.

Lemma add_logs_log rs (w : World) : log (add_logs rs w) = log w ++ rs.
Proof. apply add_logs_fields. Qed.

(** The outcome of a facade call is the outcome of the driver call. *)
Lemma run_op_result (c : FacadeCall) (w : World) (obj : DriverObj) :
  storage_runner w = Some obj ->
  result (run_op c w) = result (invoke (obj_methods obj) (forwarded c) (ext w)).
Proof.
  intros Hrun. rewrite (run_op_forward c w Hrun).
  now destruct (invoke (obj_methods obj) (forwarded c) (ext w)).
Qed.

(** C2: with a driver retained, every facade operation has the outcome
    of the driver method it forwards to: a failure the driver raises is
    raised by the facade as the same exception object, whether it is an
    [Exception] (logged, then re-raised) or not (not caught at all), and
    a value the driver returns is returned.  A failure is logged under
    the message of the operation and never replaced. *)
Theorem facade_reraises_driver_failure (c : FacadeCall) (w : World)
        (obj : DriverObj) :
  storage_runner w = Some obj ->
  (forall e,
      result (invoke (obj_methods obj) (forwarded c) (ext w)) = Raised e ->
      result (run_op c w) = Raised e /\
      log (final (run_op c w)) =
      log w ++ (if exc_is_Exception e
                then map (fun msg => {| log_msg := msg; log_arg := e |})
                         (log_messages c)
                else [])) /\
  (forall v,
      result (invoke (obj_methods obj) (forwarded c) (ext w)) = Returned v ->
      result (run_op c w) = Returned v /\
      log (final (run_op c w)) = log w).
Proof.
  intros Hrun. rewrite (run_op_forward c w Hrun).
  destruct (invoke (obj_methods obj) (forwarded c) (ext w)) as [r x'].
  unfold result, final; cbn [fst snd].
  split; intros a Hr; subst r; (split; [reflexivity |]);
    rewrite add_logs_log; cbn [failure_log];
    [reflexivity | now rewrite app_nil_r].
Qed.

(** C5: a facade operation returns a value only when the driver method
    returned that value; a failure of the driver is never turned into a
    returned value.  [exists] returns [False] when the driver's check
    returns [False], and raises what the driver's check raises. *)
Theorem no_failure_sentinel (c : FacadeCall) (filename : string) (w : World)
        (obj : DriverObj) :
  storage_runner w = Some obj ->
  (forall v, result (run_op c w) = Returned v ->
             result (invoke (obj_methods obj) (forwarded c) (ext w)) = Returned v) /\
  (forall e, result (invoke (obj_methods obj) (forwarded c) (ext w)) = Raised e ->
             forall v, result (run_op c w) <> Returned v) /\
  (forall b, result (bs_exists (obj_methods obj) filename (ext w)) = Returned b ->
             result (exists_ filename w) = Returned b) /\
  (forall e, result (bs_exists (obj_methods obj) filename (ext w)) = Raised e ->
             result (exists_ filename w) = Raised e).
Proof.
  intros Hrun.
  rewrite (run_op_result c w Hrun).
  split; [auto |].
  split; [intros e He v Hv; rewrite He in Hv; discriminate |].
  unfold exists_. rewrite (try_log_forward _ _ _ _ w Hrun).
  destruct (bs_exists (obj_methods obj) filename (ext w)) as [r x'].
  unfold result; cbn [fst]. auto.
Qed.

(** C7: [save] hands the file name and the payload to the driver's
    [save] as they are, and [load_once] returns the bytes the driver's
    [load_once] returns: outcome and outside state are those of the
    driver call, and the trace shows the call with these arguments. *)
Theorem payload_pass_through (filename : string) (data : bytes) (w : World)
        (obj : DriverObj) :
  storage_runner w = Some obj ->
  (result (save filename data w) =
     result (bs_save (obj_methods obj) filename data (ext w)) /\
   ext (final (save filename data w)) =
     final (bs_save (obj_methods obj) filename data (ext w)) /\
   trace (final (save filename data w)) =
     trace w ++ [Call (obj_id obj) (MSave filename data)]) /\
  (result (load_once filename w) =
     result (bs_load_once (obj_methods obj) filename (ext w)) /\
   ext (final (load_once filename w)) =
     final (bs_load_once (obj_methods obj) filename (ext w)) /\
   trace (final (load_once filename w)) =
     trace w ++ [Call (obj_id obj) (MLoadOnce filename)]) /\
  (forall b, result (bs_load_once (obj_methods obj) filename (ext w)) = Returned b ->
             result (load_once filename w) = Returned b).
Proof.
  intros Hrun.
  unfold save, load_once.
  rewrite (try_log_forward_stmt _ _ _ _ w Hrun).
  rewrite (try_log_forward _ _ _ _ w Hrun).
  destruct (bs_save (obj_methods obj) filename data (ext w)) as [r1 x1].
  destruct (bs_load_once (obj_methods obj) filename (ext w)) as [r2 x2].
  unfold result, final; cbn [fst snd].
  rewrite !add_logs_ext, !add_logs_trace. simpl. auto 10.
Qed.

(** C9: with no driver retained, every facade operation raises the
    [AttributeError] of the attribute lookup on [None]; no driver method
    runs, the outside state is untouched and the facade still retains
    nothing. *)
Theorem uninitialized_raises (c : FacadeCall) (w : World) :
  storage_runner w = None ->
  result (run_op c w) =
    Raised (AttributeError_NoneType (method_name (forwarded c))) /\
  ext (final (run_op c w)) = ext w /\
  trace (final (run_op c w)) = trace w /\
  constructed (final (run_op c w)) = constructed w /\
  storage_runner (final (run_op c w)) = None.
Proof.
  intros Hrun.
  destruct (run_op_keeps_runner c w) as [Hkeep Hcons].
  rewrite Hkeep, Hcons, (run_op_None c w Hrun).
  unfold result, final; cbn [fst snd].
  rewrite add_logs_ext, add_logs_trace. auto.
Qed.

(** ** Initialization and the retained driver *)

(** What [init_app] does: the registry yields a class, the constructor
    runs between entering and leaving the application context, and only
    when it returns is the new object stored in [storage_runner]. *)
Lemma init_app_run (w : World) :
  exists cls,
    get_storage_factory StorageType STORAGE_TYPE = Some cls /\
    init_app w =
    match construct cls (ext w) with
    | (Returned methods, x') =>
        (Returned tt,
         add_trace AppContextExit
           (set_storage_runner
              (Some {| obj_id := length (constructed w);
                       obj_class := cls;
                       obj_methods := methods |})
              (add_constructed cls
                 (set_ext x'
                    (add_trace (Construct cls) (add_trace AppContextEnter w))))))
    | (Raised e, x') =>
        (Raised e,
         add_trace AppContextExit
           (set_ext x'
              (add_trace (Construct cls) (add_trace AppContextEnter w))))
    end.
Proof.
  destruct (get_storage_factory_some StorageType STORAGE_TYPE) as [cls Hcls].
  exists cls. split; [assumption |].
  unfold init_app, with_app_context, try_finally, bind, call_factory.
  rewrite Hcls. simpl.
  destruct (construct cls (ext w)) as [[methods|e] x']; reflexivity.
Qed.


(** A call of [init_app] that raises leaves the facade as it was. *)
Lemma init_app_raises (w w' : World) (e : PyException) :
  init_app w = (Raised e, w') ->
  storage_runner w' = storage_runner w /\ constructed w' = constructed w.
Proof.
  destruct (init_app_run w) as (cls & Hcls & Hrun). rewrite Hrun.
  destruct (construct cls (ext w)) as [[methods|e'] x']; [discriminate |].
  intros Heq. inversion Heq; subst. auto.
Qed.

(** A sequence of facade calls on a retained driver: nothing is
    constructed, the reference stays, and the trace grows by one call
    per operation, each on the retained object. *)
Lemma run_ops_forward (cs : list FacadeCall) (w : World) (obj : DriverObj) :
  storage_runner w = Some obj ->
  storage_runner (run_ops cs w) = Some obj /\
  constructed (run_ops cs w) = constructed w /\
  trace (run_ops cs w) =
    trace w ++ map (fun c => Call (obj_id obj) (forwarded c)) cs.
Proof.
  revert w. induction cs as [|c cs IH]; intros w Hrun; simpl.
  - rewrite app_nil_r. auto.
  - destruct (run_op_keeps_runner c w) as [Hkeep Hcons].
    assert (Htr : trace (final (run_op c w)) =
                  trace w ++ [Call (obj_id obj) (forwarded c)]).
    { rewrite (run_op_forward c w Hrun).
      destruct (invoke (obj_methods obj) (forwarded c) (ext w)) as [r x'].
      unfold final; cbn [snd]. now rewrite add_logs_trace. }
    rewrite Hrun in Hkeep.
    destruct (IH _ Hkeep) as (H1 & H2 & H3).
    rewrite H1, H2, H3, Hcons, Htr, <- app_assoc. auto.
Qed.

(** The outside state after a facade call is the one the driver call
    leaves. *)
Lemma run_op_ext (c : FacadeCall) (w : World) (obj : DriverObj) :
  storage_runner w = Some obj ->
  ext (final (run_op c w)) =
  final (invoke (obj_methods obj) (forwarded c) (ext w)).
Proof.
  intros Hrun. rewrite (run_op_forward c w Hrun).
  destruct (invoke (obj_methods obj) (forwarded c) (ext w)) as [r x'].
  unfold final; cbn [snd]. now rewrite add_logs_ext.
Qed.

(** A sequence of facade calls on a retained driver is the sequence of
    the driver's method calls: same outcomes, same outside state. *)
Lemma run_ops_invoke_all (cs : list FacadeCall) (w : World) (obj : DriverObj) :
  storage_runner w = Some obj ->
  (run_ops_results cs w, ext (run_ops cs w)) =
  invoke_all (obj_methods obj) (map forwarded cs) (ext w).
Proof.
  revert w. induction cs as [|c cs IH]; intros w Hrun; [reflexivity |].
  assert (Hnext : storage_runner (final (run_op c w)) = Some obj).
  { destruct (run_op_keeps_runner c w) as [Hkeep _]. now rewrite Hkeep. }
  specialize (IH _ Hnext).
  cbn [run_ops_results run_ops map invoke_all].
  rewrite (run_op_result c w Hrun).
  rewrite (run_op_ext c w Hrun) in IH.
  destruct (invoke (obj_methods obj) (forwarded c) (ext w)) as [r x'].
  unfold result, final in *; cbn [fst snd] in *.
  destruct (invoke_all (obj_methods obj) (map forwarded cs) x') as [rs x''].
  now inversion IH.
Qed.

(** The object a returning [init_app] retains is the one the constructor
    of the resolved class returned, on the outside state it left. *)
Lemma init_app_returns_construct (w w' : World) :
  init_app w = (Returned tt, w') ->
  exists cls obj,
    get_storage_factory StorageType STORAGE_TYPE = Some cls /\
    construct cls (ext w) = (Returned (obj_methods obj), ext w') /\
    storage_runner w' = Some obj /\
    obj_class obj = cls /\
    obj_id obj = length (constructed w) /\
    constructed w' = constructed w ++ [cls] /\
    trace w' = trace w ++ [AppContextEnter; Construct cls; AppContextExit].
Proof.
  destruct (init_app_run w) as (cls & Hcls & Hrun). rewrite Hrun.
  destruct (construct cls (ext w)) as [[methods|e] x'] eqn:Hcons;
    [| discriminate].
  intros Heq. inversion Heq; subst w'; clear Heq.
  exists cls, {| obj_id := length (constructed w);
                 obj_class := cls;
                 obj_methods := methods |}.
  split; [assumption |].
  split; [exact Hcons |]. split; [reflexivity |].
  simpl. rewrite <- !app_assoc. auto.
Qed.




(** ** [load], [timeit] and streams *)

(** A handler that logs and re-raises changes the log and nothing else. *)
Lemma try_log_outcome {A} (body : Py World A) (msg : string) (w : World) :
  try_except_Exception body (fun e => logging_exception msg e ;; raise e) w =
  (result (body w), add_logs (handler_log msg (result (body w))) (final (body w))).
Proof.
  unfold try_except_Exception, bind, raise, logging_exception, result, final.
  destruct (body w) as [[a|e] w']; cbn [fst snd handler_log]; [reflexivity |].
  destruct (exc_is_Exception e); reflexivity.
Qed.

Lemma fmap_run {A B} (f : A -> B) (m : Py World A) (w : World) :
  fmap f m w =
  (match result (m w) with Returned a => Returned (f a) | Raised e => Raised e end,
   final (m w)).
Proof.
  unfold fmap, bind, ret, result, final.
  now destruct (m w) as [[a|e] w'].
Qed.

(** C3: [load] with [stream=True] has the outcome of [load_stream], with
    [stream=False] the outcome of [load_once], and an omitted [stream]
    is [False]; apart from the log record of its own handler it leaves
    the process as they do.  Every other operation forwards to the
    driver method of its own name, whatever its arguments, and is that
    one call: it has the outcome of the call and leaves the outside
    state the call leaves. *)
Theorem load_dispatch (filename : string) (w : World) :
  (result (load filename (Some true) w) =
     result (fmap PyGenerator (load_stream filename) w) /\
   final (load filename (Some true) w) =
     add_logs (handler_log "Failed to load file: %s"
                           (result (load_stream filename w)))
              (final (load_stream filename w))) /\
  (result (load filename (Some false) w) =
     result (fmap PyBytes (load_once filename) w) /\
   final (load filename (Some false) w) =
     add_logs (handler_log "Failed to load file: %s"
                           (result (load_once filename w)))
              (final (load_once filename w))) /\
  load filename None w = load filename (Some false) w /\
  (forall c, is_load c = false ->
     method_name (forwarded c) = op_name c /\
     forall obj, storage_runner w = Some obj ->
       result (run_op c w) =
         result (invoke (obj_methods obj) (forwarded c) (ext w)) /\
       ext (final (run_op c w)) =
         final (invoke (obj_methods obj) (forwarded c) (ext w)) /\
       trace (final (run_op c w)) =
         trace w ++ [Call (obj_id obj) (forwarded c)]).
Proof.
  split; [| split; [| split; [reflexivity |]]].
  - unfold load. rewrite try_log_outcome, fmap_run.
    unfold result, final; cbn [fst snd].
    destruct (load_stream filename w) as [[g|e] w']; cbn [fst snd]; auto.
  - unfold load. rewrite try_log_outcome, fmap_run.
    unfold result, final; cbn [fst snd].
    destruct (load_once filename w) as [[b|e] w']; cbn [fst snd]; auto.
  - intros c Hc. split; [destruct c; try discriminate; reflexivity |].
    intros obj Hrun. split; [now apply run_op_result |].
    rewrite (run_op_forward c w Hrun).
    destruct (invoke (obj_methods obj) (forwarded c) (ext w)) as [r x'].
    unfold final; cbn [snd]. now rewrite add_logs_trace, add_logs_ext.
Qed.

Lemma add_logs_tick rs (w : World) : add_logs rs (tick w) = tick (add_logs rs w).
Proof.
  revert w. induction rs as [|r rs IH]; intros w; [reflexivity |].
  unfold add_logs in *. simpl. exact (IH (add_log r w)).
Qed.

(** A facade call neither reads nor writes the clock. *)
Lemma run_op_tick (c : FacadeCall) (w : World) :
  run_op c (tick w) = (result (run_op c w), tick (final (run_op c w))).
Proof.
  destruct (storage_runner w) as [obj|] eqn:Hrun.
  - rewrite (run_op_forward c (tick w) (obj := obj)) by exact Hrun.
    rewrite (run_op_forward c w Hrun). cbn [ext tick].
    destruct (invoke (obj_methods obj) (forwarded c) (ext w)) as [r x'].
    unfold result, final; cbn [fst snd].
    now rewrite <- add_logs_tick.
  - rewrite (run_op_None c (tick w)) by exact Hrun.
    rewrite (run_op_None c w Hrun).
    unfold result, final; cbn [fst snd].
    now rewrite <- add_logs_tick.
Qed.

Lemma run_op_keeps_histogram (c : FacadeCall) (w : World) :
  REQUEST_LATENCY (final (run_op c w)) = REQUEST_LATENCY w.
Proof.
  destruct (storage_runner w) as [obj|] eqn:Hrun.
  - rewrite (run_op_forward c w Hrun).
    destruct (invoke (obj_methods obj) (forwarded c) (ext w)) as [r x'].
    unfold final; cbn [snd].
    destruct (add_logs_fields (failure_log c r)
                (set_ext x' (add_trace (Call (obj_id obj) (forwarded c)) w)))
      as (_ & _ & _ & _ & _ & _ & H & _).
    now rewrite H.
  - rewrite (run_op_None c w Hrun). unfold final; cbn [snd].
    destruct (add_logs_fields
                (failure_log c (Raised (AttributeError_NoneType
                                          (method_name (forwarded c))))) w)
      as (_ & _ & _ & _ & _ & _ & H & _).
    now rewrite H.
Qed.

(** C8: a facade operation run under [timeit] returns the value or
    raises the failure it does without it, and leaves the retained
    driver, the outside state, the log and the trace as it does without
    it; with a driver retained this is the outcome of the bare driver
    call.  The [REQUEST_LATENCY] histogram receives nothing either way. *)
Theorem timeit_keeps_outcome (c : FacadeCall) (w : World) :
  result (timeit (op_name c) (run_op c) w) = result (run_op c w) /\
  storage_runner (final (timeit (op_name c) (run_op c) w)) =
    storage_runner (final (run_op c w)) /\
  constructed (final (timeit (op_name c) (run_op c) w)) =
    constructed (final (run_op c w)) /\
  ext (final (timeit (op_name c) (run_op c) w)) = ext (final (run_op c w)) /\
  log (final (timeit (op_name c) (run_op c) w)) = log (final (run_op c w)) /\
  trace (final (timeit (op_name c) (run_op c) w)) = trace (final (run_op c w)) /\
  REQUEST_LATENCY (final (timeit (op_name c) (run_op c) w)) = REQUEST_LATENCY w /\
  REQUEST_LATENCY (final (run_op c w)) = REQUEST_LATENCY w /\
  (forall obj, storage_runner w = Some obj ->
     result (timeit (op_name c) (run_op c) w) =
     result (invoke (obj_methods obj) (forwarded c) (ext w))).
Proof.
  assert (Hhist := run_op_keeps_histogram c w).
  assert (Hres : forall obj, storage_runner w = Some obj ->
            result (run_op c w) =
            result (invoke (obj_methods obj) (forwarded c) (ext w)))
    by (intros obj; apply run_op_result).
  unfold timeit, time_time, print, bind, ret.
  rewrite run_op_tick.
  destruct (run_op c w) as [[v|e] w']; unfold result, final in *;
    cbn [fst snd] in *; simpl; auto 10.
Qed.

(** The caller's loop has no handler of the facade around it: it writes
    no log record. *)
Lemma take_chunks_log (n : nat) (g : Generator) (w : World) :
  log (final (take_chunks n g w)) = log w.
Proof.
  revert w. induction n as [|n IH]; intros w; [reflexivity |].
  simpl. unfold bind, next, ret.
  destruct (generator_next g (ext w)) as [[[b|]|e] x']; try reflexivity.
  specialize (IH (set_ext x' w)).
  destruct (take_chunks n g (set_ext x' w)) as [[bs|e] w']; exact IH.
Qed.

(** C10: when the driver's [load_stream] returns a generator, the
    facade's [load_stream] returns that generator and logs nothing, and
    the caller's iteration runs outside the handler: a failure raised
    while the chunks are taken reaches the caller with no log record of
    the facade.  Only a failure raised by the driver's [load_stream]
    call itself is logged (when it is an [Exception]) and re-raised. *)
Theorem stream_failures_bypass_facade (filename : string) (w : World)
        (obj : DriverObj) :
  storage_runner w = Some obj ->
  (forall g x',
     bs_load_stream (obj_methods obj) filename (ext w) = (Returned g, x') ->
     result (load_stream filename w) = Returned g /\
     ext (final (load_stream filename w)) = x' /\
     log (final (load_stream filename w)) = log w /\
     (forall n,
        stream_and_take n filename w =
          take_chunks n g (final (load_stream filename w)) /\
        log (final (stream_and_take n filename w)) = log w) /\
     (forall e x'' n,
        generator_next g x' = (Raised e, x'') ->
        result (stream_and_take (S n) filename w) = Raised e /\
        log (final (stream_and_take (S n) filename w)) = log w)) /\
  (forall e x',
     bs_load_stream (obj_methods obj) filename (ext w) = (Raised e, x') ->
     result (load_stream filename w) = Raised e /\
     log (final (load_stream filename w)) =
       log w ++ (if exc_is_Exception e
                 then [{| log_msg := "Failed to load_stream file: %s";
                          log_arg := e |}]
                 else [])).
Proof.
  intros Hrun.
  assert (Hfwd := try_log_forward "load_stream" (MLoadStream filename)
                    (fun o => bs_load_stream o filename)
                    "Failed to load_stream file: %s" w Hrun).
  fold (load_stream filename) in Hfwd. cbv beta in Hfwd.
  split.
  - intros g x' Hdrv. rewrite Hdrv in Hfwd.
    cbn [handler_log add_logs fold_left] in Hfwd.
    assert (Hstream : forall n,
              stream_and_take n filename w =
              take_chunks n g (final (load_stream filename w))).
    { intros n. unfold stream_and_take, bind. now rewrite Hfwd. }
    split; [now rewrite Hfwd |]. split; [now rewrite Hfwd |].
    split; [now rewrite Hfwd |].
    split.
    + intros n. split; [apply Hstream |].
      rewrite Hstream, take_chunks_log. now rewrite Hfwd.
    + intros e x'' n Hnext.
      split; [| rewrite Hstream, take_chunks_log; now rewrite Hfwd].
      rewrite Hstream, Hfwd. unfold final at 1; cbn [snd].
      simpl. unfold bind, next. cbn [ext set_ext].
      now rewrite Hnext.
  - intros e x' Hdrv. rewrite Hdrv in Hfwd. rewrite Hfwd.
    unfold result, final; cbn [fst snd].
    split; [reflexivity |]. rewrite add_logs_log. reflexivity.
Qed.

End FacadeProperties.

(** ** Runs on the store held in memory *)

(** The scenario of the spec: save, read back, check, delete, check. *)
Example save_load_exists_delete :
  let w0 := started "s3" empty_store in
  let w1 := final (@run_op s3 (Save "a.txt" hello) w0) in
  let w2 := final (@run_op s3 (Delete "a.txt") w1) in
  result (@run_op s3 (Exists "a.txt") w0) = Returned (PyBool false) /\
  result (@run_op s3 (LoadOnce "a.txt") w1) = Returned (PyBytes hello) /\
  result (@run_op s3 (Exists "a.txt") w1) = Returned (PyBool true) /\
  result (@run_op s3 (Delete "a.txt") w1) = Returned PyNone /\
  result (@run_op s3 (Exists "a.txt") w2) = Returned (PyBool false) /\
  result (@run_op s3 (Load "a.txt" (Some true)) w2) =
    Raised (FileNotFoundError "a.txt") /\
  result (@run_op s3 (Load "a.txt" None) w2) =
    Raised (FileNotFoundError "a.txt").
Proof. vm_compute. repeat split. Qed.

Lemma facade_reraises_driver_failure_witness :
  @storage_runner s3 (started "s3" store_with_a_txt) = Some s3_runner /\
  result (@run_op s3 (LoadOnce "b.txt") (started "s3" store_with_a_txt)) =
    Raised (FileNotFoundError "b.txt") /\
  result (@run_op s3 (LoadOnce "a.txt") (started "s3" store_with_a_txt)) =
    Returned (PyBytes hello).
Proof.
  split; [reflexivity |].
  split.
  - apply (@facade_reraises_driver_failure s3 (LoadOnce "b.txt")
             (started "s3" store_with_a_txt) s3_runner eq_refl).
    reflexivity.
  - apply (@facade_reraises_driver_failure s3 (LoadOnce "a.txt")
             (started "s3" store_with_a_txt) s3_runner eq_refl).
    reflexivity.
Defined.

Lemma no_failure_sentinel_witness :
  @storage_runner s3 (unplugged "s3" store_with_a_txt) = Some s3_runner /\
  result (@exists_ s3 "b.txt" (started "s3" store_with_a_txt)) = Returned false /\
  result (@exists_ s3 "a.txt" (unplugged "s3" store_with_a_txt)) =
    Raised ConnectionError.
Proof.
  split; [reflexivity |].
  split.
  - apply (@no_failure_sentinel s3 (Exists "b.txt") "b.txt"
             (started "s3" store_with_a_txt) s3_runner eq_refl).
    reflexivity.
  - apply (@no_failure_sentinel s3 (Exists "a.txt") "a.txt"
             (unplugged "s3" store_with_a_txt) s3_runner eq_refl).
    reflexivity.
Defined.

Lemma payload_pass_through_witness :
  @storage_runner s3 (started "s3" empty_store) = Some s3_runner /\
  @trace s3 (final (@save s3 "b.txt" hello (started "s3" empty_store))) =
    @trace s3 (started "s3" empty_store) ++ [Call 0 (MSave "b.txt" hello)] /\
  result (@load_once s3 "a.txt" (started "s3" store_with_a_txt)) =
    Returned hello.
Proof.
  split; [reflexivity |].
  split.
  - apply (@payload_pass_through s3 "b.txt" hello
             (started "s3" empty_store) s3_runner eq_refl).
  - apply (@payload_pass_through s3 "a.txt" hello
             (started "s3" store_with_a_txt) s3_runner eq_refl).
    reflexivity.
Defined.

Lemma uninitialized_raises_witness :
  @storage_runner s3 (@Storage__init__ s3 store_with_a_txt) = None /\
  result (@run_op s3 (Load "a.txt" None) (@Storage__init__ s3 store_with_a_txt)) =
    Raised (AttributeError_NoneType "load_once") /\
  @ext s3 (final (@run_op s3 (Delete "a.txt")
                          (@Storage__init__ s3 store_with_a_txt))) =
    store_with_a_txt.
Proof.
  split; [reflexivity |].
  split.
  - apply (@uninitialized_raises s3 (Load "a.txt" None)
             (@Storage__init__ s3 store_with_a_txt) eq_refl).
  - apply (@uninitialized_raises s3 (Delete "a.txt")
             (@Storage__init__ s3 store_with_a_txt) eq_refl).
Defined.



Lemma stream_failures_bypass_facade_witness :
  @storage_runner s3 (unplugged "s3" store_with_a_txt) = Some s3_runner /\
  result (@load_stream s3 "a.txt" (unplugged "s3" store_with_a_txt)) =
    Returned 0 /\
  result (@stream_and_take s3 3 "a.txt" (unplugged "s3" store_with_a_txt)) =
    Raised ConnectionError /\
  @log s3 (final (@stream_and_take s3 3 "a.txt"
                                   (unplugged "s3" store_with_a_txt))) = [].
Proof.
  split; [reflexivity |].
  destruct (@stream_failures_bypass_facade s3 "a.txt"
              (unplugged "s3" store_with_a_txt) s3_runner eq_refl)
    as [Hlazy _].
  destruct (Hlazy 0 _ eq_refl) as (Hres & _ & _ & _ & Hnext).
  split; [exact Hres |].
  eapply (Hnext ConnectionError). reflexivity.
Defined.


(** * Further properties of the module *)

(** ** The registry as a lookup *)

(** A run of value clauses is a first-match search of the subject among
    the values. *)
Lemma match_stmt_values_find {A} (subject : string) (l : list (string * A)) tail :
  match_stmt subject (value_cases l ++ tail) =
  match find (fun kv => String.eqb subject (fst kv)) l with
  | Some kv => Some (snd kv)
  | None => match_stmt subject tail
  end.
Proof.
  induction l as [|[v a] l IH]; simpl; [reflexivity |].
  destruct (String.eqb subject v); [reflexivity | exact IH].
Qed.

Lemma cloud_drivers_not_local (T : StorageTypeEnum) name cls :
  In (name, cls) (cloud_drivers T) -> cls <> LocalFsStorage.
Proof.
  unfold cloud_drivers, member_drivers; simpl. intros Hin.
  repeat (destruct Hin as [Hin | Hin]; [inversion Hin; discriminate |]).
  contradiction.
Qed.

Lemma get_storage_factory_find (T : StorageTypeEnum) (identifier : string) :
  get_storage_factory T identifier =
  Some (match find (fun kv => String.eqb identifier (fst kv)) (cloud_drivers T) with
        | Some kv => snd kv
        | None => LocalFsStorage
        end).
Proof.
  rewrite get_storage_factory_cases, match_stmt_values_find.
  destruct (find _ (cloud_drivers T)); [reflexivity |].
  simpl. now rewrite orb_true_r.
Qed.

Lemma get_storage_factory_local_iff (T : StorageTypeEnum) (identifier : string) :
  get_storage_factory T identifier = Some LocalFsStorage <->
  ~ In identifier (map fst (cloud_drivers T)).
Proof.
  rewrite get_storage_factory_find.
  destruct (find (fun kv => String.eqb identifier (fst kv)) (cloud_drivers T))
    as [[v cls]|] eqn:Hf.
  - apply find_some in Hf. destruct Hf as [Hin Heq].
    apply String.eqb_eq in Heq. simpl in Heq. subst v.
    split.
    + intros Hloc. inversion Hloc as [Hcls]. simpl in Hcls.
      exfalso. exact (cloud_drivers_not_local Hin Hcls).
    + intros Hnot. exfalso. apply Hnot.
      change identifier with (fst (identifier, cls)). now apply in_map.
  - split; [| reflexivity].
    intros _ Hin. apply in_map_iff in Hin. destruct Hin as [[v cls] [Hv Hin]].
    simpl in Hv. subst v.
    apply (find_none _ _ Hf) in Hin. simpl in Hin.
    now rewrite String.eqb_refl in Hin.
Qed.

(** X1: [get_storage_factory] is a first-match lookup of the identifier
    among the values of the ten members other than [LOCAL], with
    [LocalFsStorage] as the default.  It yields [LocalFsStorage] exactly
    for the identifiers that equal none of these ten values, and the
    value of [LOCAL] plays no part: two tables that agree on the ten
    other members resolve every identifier alike. *)
Theorem get_storage_factory_lookup (T : StorageTypeEnum) (identifier : string) :
  get_storage_factory T identifier =
    Some (match find (fun kv => String.eqb identifier (fst kv)) (cloud_drivers T) with
          | Some kv => snd kv
          | None => LocalFsStorage
          end) /\
  (get_storage_factory T identifier = Some LocalFsStorage <->
   ~ In identifier (map fst (cloud_drivers T))) /\
  (forall T', cloud_drivers T' = cloud_drivers T ->
              get_storage_factory T' identifier = get_storage_factory T identifier).
Proof.
  split; [apply get_storage_factory_find |].
  split; [apply get_storage_factory_local_iff |].
  intros T' Hsame. now rewrite !get_storage_factory_find, Hsame.
Qed.

Section ModuleProperties.
Context {P : Platform}.

(** ** [init_app] *)

Lemma run_op_keeps_stdout_clock (c : FacadeCall) (w : World) :
  stdout (final (run_op c w)) = stdout w /\
  clock_reads (final (run_op c w)) = clock_reads w.
Proof.
  destruct (storage_runner w) as [obj|] eqn:Hrun.
  - rewrite (run_op_forward c w Hrun).
    destruct (invoke (obj_methods obj) (forwarded c) (ext w)) as [r x'].
    unfold final; cbn [snd].
    destruct (add_logs_fields (failure_log c r)
                (set_ext x' (add_trace (Call (obj_id obj) (forwarded c)) w)))
      as (_ & _ & _ & _ & H5 & H6 & _).
    now rewrite H5, H6.
  - rewrite (run_op_None c w Hrun). unfold final; cbn [snd].
    destruct (add_logs_fields
                (failure_log c (Raised (AttributeError_NoneType
                                          (method_name (forwarded c))))) w)
      as (_ & _ & _ & _ & H5 & H6 & _).
    now rewrite H5, H6.
Qed.

(** X2: whatever the constructor does, [init_app] runs it between
    entering and leaving the application context, once, for the class
    the registry yields for [STORAGE_TYPE], and writes no log record.
    When the constructor raises, [init_app] raises the same exception
    after the context is left, and the facade retains what it retained
    before. *)
Theorem init_app_runs_constructor_in_context (w : World) :
  exists cls,
    get_storage_factory StorageType STORAGE_TYPE = Some cls /\
    trace (final (init_app w)) =
      trace w ++ [AppContextEnter; Construct cls; AppContextExit] /\
    ext (final (init_app w)) = final (construct cls (ext w)) /\
    log (final (init_app w)) = log w /\
    (forall e, result (construct cls (ext w)) = Raised e ->
       result (init_app w) = Raised e /\
       storage_runner (final (init_app w)) = storage_runner w /\
       constructed (final (init_app w)) = constructed w) /\
    (forall methods, result (construct cls (ext w)) = Returned methods ->
       result (init_app w) = Returned tt /\
       storage_runner (final (init_app w)) =
         Some {| obj_id := length (constructed w);
                 obj_class := cls;
                 obj_methods := methods |}).
Proof.
  destruct (init_app_run w) as (cls & Hcls & Hrun).
  exists cls. split; [assumption |]. rewrite Hrun.
  destruct (construct cls (ext w)) as [[methods|e] x'];
    unfold result, final; cbn [fst snd]; simpl; rewrite <- !app_assoc; simpl.
  all: split; [reflexivity |]; split; [reflexivity |]; split; [reflexivity |].
  all: split; intros a Ha; inversion Ha; subst; auto.
Qed.

(** X3: after a call of the module's [init_app] that returns, be it the
    first or a repeated one, every facade operation is a call on the
    driver object this call constructed (the one numbered by how many
    were constructed before, with the methods the constructor
    returned), and no further driver is constructed: call by call the
    operations have the outcomes of that object's methods and leave the
    outside state they leave. *)
Theorem operations_follow_latest_init (w w1 : World) (cs : list FacadeCall) :
  ext_storage_init_app w = (Returned tt, w1) ->
  exists cls obj,
    get_storage_factory StorageType STORAGE_TYPE = Some cls /\
    construct cls (ext w) = (Returned (obj_methods obj), ext w1) /\
    obj_class obj = cls /\
    obj_id obj = length (constructed w) /\
    storage_runner (run_ops cs w1) = Some obj /\
    constructed (run_ops cs w1) = constructed w ++ [cls] /\
    trace (run_ops cs w1) =
      trace w ++ [AppContextEnter; Construct cls; AppContextExit]
      ++ map (fun c => Call (length (constructed w)) (forwarded c)) cs /\
    (run_ops_results cs w1, ext (run_ops cs w1)) =
      invoke_all (obj_methods obj) (map forwarded cs) (ext w1).
Proof.
  unfold ext_storage_init_app. intros Hinit.
  destruct (init_app_returns_construct _ Hinit)
    as (cls & obj & Hcls & Hcons & Hrun & Hclass & Hid & Hbuilt & Htr).
  destruct (run_ops_forward cs w1 Hrun) as (H1 & H2 & H3).
  exists cls, obj.
  rewrite H1, H2, H3, Hbuilt, Htr, Hid, <- app_assoc.
  rewrite (run_ops_invoke_all cs w1 Hrun). auto 10.
Qed.

(** X4: when [STORAGE_TYPE] equals none of the values of the ten members
    other than [LOCAL], [init_app] raises no error of its own: it runs
    the constructor of [LocalFsStorage], fails only if that constructor
    fails, and otherwise retains a [LocalFsStorage] driver. *)
Theorem unknown_storage_type_starts_local (w : World) :
  ~ In STORAGE_TYPE (map fst (cloud_drivers StorageType)) ->
  (forall e, result (init_app w) = Raised e ->
             result (construct LocalFsStorage (ext w)) = Raised e) /\
  (forall methods,
     result (construct LocalFsStorage (ext w)) = Returned methods ->
     result (init_app w) = Returned tt /\
     storage_runner (final (init_app w)) =
       Some {| obj_id := length (constructed w);
               obj_class := LocalFsStorage;
               obj_methods := methods |} /\
     constructed (final (init_app w)) = constructed w ++ [LocalFsStorage]).
Proof.
  intros Hunknown.
  apply get_storage_factory_local_iff in Hunknown.
  destruct (init_app_run w) as (cls & Hcls & Hrun).
  rewrite Hunknown in Hcls. inversion Hcls; subst cls. rewrite Hrun.
  destruct (construct LocalFsStorage (ext w)) as [[methods|e] x'];
    unfold result, final; cbn [fst snd]; split.
  - intros e He. discriminate He.
  - intros m Hm. inversion Hm; subst. repeat split.
  - intros e0 He. now inversion He.
  - intros m Hm. discriminate Hm.
Qed.

(** X5: when [init_app] raises on the freshly imported module, the
    facade retains nothing, so every later operation raises the
    [AttributeError] of the lookup on [None], not the failure of the
    constructor, and calls no driver. *)
Theorem failed_init_leaves_operations_failing (x : Ext) (e : PyException)
        (w' : World) (c : FacadeCall) :
  init_app (Storage__init__ x) = (Raised e, w') ->
  storage_runner w' = None /\
  constructed w' = [] /\
  result (run_op c w') =
    Raised (AttributeError_NoneType (method_name (forwarded c))) /\
  trace (final (run_op c w')) = trace w' /\
  ext (final (run_op c w')) = ext w'.
Proof.
  intros Hinit.
  destruct (init_app_raises _ Hinit) as [Hrun Hcons]. simpl in Hrun, Hcons.
  split; [assumption |]. split; [assumption |].
  rewrite (run_op_None c w' Hrun).
  unfold result, final; cbn [fst snd].
  rewrite add_logs_trace, add_logs_ext. auto.
Qed.

(** ** [timeit] *)

(** X6: under [timeit], a facade operation that returns makes the
    wrapper read the clock twice and print one line, with the name of
    the operation and the time between the two readings; an operation
    that raises leaves the wrapper before the second reading, and
    nothing is printed. *)
Theorem timeit_reports_on_return_only (c : FacadeCall) (w : World) :
  (forall v, result (run_op c w) = Returned v ->
     stdout (final (timeit (op_name c) (run_op c) w)) =
       stdout w
       ++ [("Function '" ++ op_name c ++ "' executed in "
            ++ format_elapsed (wall_clock (S (clock_reads w)))
                              (wall_clock (clock_reads w))
            ++ " seconds.")%string] /\
     clock_reads (final (timeit (op_name c) (run_op c) w)) =
       S (S (clock_reads w))) /\
  (forall e, result (run_op c w) = Raised e ->
     stdout (final (timeit (op_name c) (run_op c) w)) = stdout w /\
     clock_reads (final (timeit (op_name c) (run_op c) w)) =
       S (clock_reads w)).
Proof.
  destruct (run_op_keeps_stdout_clock c w) as [Hout Hclock].
  unfold timeit, time_time, print, bind, ret.
  rewrite run_op_tick.
  destruct (run_op c w) as [[v|e] w']; unfold result, final in *;
    cbn [fst snd] in *; split; intros a Ha; try discriminate;
    simpl; rewrite Hout, Hclock; auto.
Qed.

(** ** What the facade never touches *)

Lemma init_app_keeps_stdout_clock_histogram (w : World) :
  stdout (final (init_app w)) = stdout w /\
  clock_reads (final (init_app w)) = clock_reads w /\
  REQUEST_LATENCY (final (init_app w)) = REQUEST_LATENCY w.
Proof.
  destruct (init_app_run w) as (cls & _ & Hrun). rewrite Hrun.
  destruct (construct cls (ext w)) as [[methods|e] x']; simpl; auto.
Qed.

(** X7: over any sequence of initialization calls and facade
    operations, the [REQUEST_LATENCY] histogram receives no
    observation, nothing is printed and the clock is not read. *)
Theorem steps_never_report (w w' : World) :
  steps w w' ->
  REQUEST_LATENCY w' = REQUEST_LATENCY w /\
  stdout w' = stdout w /\
  clock_reads w' = clock_reads w.
Proof.
  induction 1 as [w | w1 w2 w3 Hstep _ IH]; [auto |].
  destruct IH as (H1 & H2 & H3). rewrite H1, H2, H3.
  destruct Hstep as [w | c w].
  - destruct (init_app_keeps_stdout_clock_histogram w) as (Ho & Hc & Hh). auto.
  - destruct (run_op_keeps_stdout_clock c w) as [Ho Hc].
    rewrite (run_op_keeps_histogram c w). auto.
Qed.

End ModuleProperties.

(** ** Runs of the further properties *)

Lemma operations_follow_latest_init_witness :
  @ext_storage_init_app s3 (started "s3" empty_store) =
    (Returned tt, final (@init_app s3 (started "s3" empty_store))) /\
  @trace s3
    (@run_ops s3 [Save "a.txt" hello; Exists "a.txt"]
              (final (@init_app s3 (started "s3" empty_store)))) =
    [AppContextEnter; Construct AwsS3Storage; AppContextExit;
     AppContextEnter; Construct AwsS3Storage; AppContextExit;
     Call 1 (MSave "a.txt" hello); Call 1 (MExists "a.txt")] /\
  @run_ops_results s3 [Save "a.txt" hello; Exists "a.txt"]
    (final (@init_app s3 (started "s3" empty_store))) =
    [Returned (@PyNone s3); Returned (@PyBool s3 true)].
Proof.
  assert (Hinit : @ext_storage_init_app s3 (started "s3" empty_store) =
                  (Returned tt, final (@init_app s3 (started "s3" empty_store))))
    by (vm_compute; reflexivity).
  split; [exact Hinit |].
  destruct (@operations_follow_latest_init s3 (started "s3" empty_store)
              (final (@init_app s3 (started "s3" empty_store)))
              [Save "a.txt" hello; Exists "a.txt"] Hinit)
    as (cls & obj & Hcls & Hcons & _ & _ & _ & _ & Htr & Hall).
  assert (Hs3 : cls = AwsS3Storage) by (inversion Hcls; reflexivity).
  assert (Hmethods : obj_methods obj = mem_driver)
    by (inversion Hcons; reflexivity).
  split.
  - rewrite Htr, Hs3. reflexivity.
  - apply (f_equal fst) in Hall. cbn [fst] in Hall.
    rewrite Hall, Hmethods. vm_compute. reflexivity.
Defined.

Lemma unknown_storage_type_starts_local_witness :
  ~ In (@STORAGE_TYPE bogus) (map fst (cloud_drivers (@StorageType bogus))) /\
  result (@init_app bogus (@Storage__init__ bogus empty_store)) = Returned tt /\
  @constructed bogus (final (@init_app bogus (@Storage__init__ bogus empty_store)))
    = [LocalFsStorage].
Proof.
  assert (Hunknown :
            ~ In (@STORAGE_TYPE bogus) (map fst (cloud_drivers (@StorageType bogus)))).
  { simpl. intuition discriminate. }
  split; [exact Hunknown |].
  destruct (@unknown_storage_type_starts_local bogus
              (@Storage__init__ bogus empty_store) Hunknown) as [_ Hok].
  destruct (Hok mem_driver eq_refl) as (Hres & _ & Hcons).
  split; [exact Hres | exact Hcons].
Defined.

Lemma failed_init_leaves_operations_failing_witness :
  @init_app s3 (@Storage__init__ s3 unreachable_store) =
    (Raised ConnectionError,
     final (@init_app s3 (@Storage__init__ s3 unreachable_store))) /\
  result (@run_op s3 (Exists "a.txt")
            (final (@init_app s3 (@Storage__init__ s3 unreachable_store)))) =
    Raised (AttributeError_NoneType "exists").
Proof.
  split; [reflexivity |].
  apply (@failed_init_leaves_operations_failing s3 unreachable_store
           ConnectionError
           (final (@init_app s3 (@Storage__init__ s3 unreachable_store)))
           (Exists "a.txt") eq_refl).
Defined.

Lemma steps_never_report_witness :
  @steps s3 (started "s3" empty_store)
         (final (@run_op s3 (Save "a.txt" hello)
                         (final (@init_app s3 (started "s3" empty_store))))) /\
  @stdout s3 (final (@run_op s3 (Save "a.txt" hello)
                             (final (@init_app s3 (started "s3" empty_store)))))
    = [].
Proof.
  assert (Hsteps :
            @steps s3 (started "s3" empty_store)
                   (final (@run_op s3 (Save "a.txt" hello)
                                   (final (@init_app s3 (started "s3" empty_store)))))).
  { eapply steps_next; [apply step_init_app |].
    eapply steps_next; [apply step_op | apply steps_refl]. }
  split; [exact Hsteps |].
  destruct (@steps_never_report s3 _ _ Hsteps) as (_ & Hout & _).
  rewrite Hout. reflexivity.
Defined.
